(** * A shallow embedding of the 3D quadrotor dynamics notebook

    Source: [src/3-3D-Quadrotor.ipynb] (cells 3 to 6): [dRot3], the
    [Params] dataclass with its global instance [p], the class
    [FullQuadrotorDynamics] with [rotor_thrust_model], [step] and
    [state_derivative], and the three controllers.

    Numbers.  The notebook computes with NumPy [float64] values.  Here every
    number is a real ([R] of the Standard Library): the development is about
    the formulas the code evaluates, with exact arithmetic in place of
    rounded arithmetic.  NumPy arrays of a fixed shape are tuples of reals:
    shape (3,) is [Vec3], shape (4,) is [Vec4], a matrix is the tuple of its
    rows.

    Rotor rates reach the dynamics either as a [float64] array or, from the
    controllers that write integer literals, as an [int64] array; products
    of [int64] numbers wrap around modulo 2^64, and that is modelled.

    Errors.  A computation that can raise returns a [result]:
    [np.linalg.inv] raises on a singular matrix, and the division of two
    Python floats raises on a zero divisor. *)

From Stdlib Require Import ZArith Reals Lra Lia.

Local Open Scope R_scope.

(** ** Exceptions and the error monad *)

Inductive exn : Type :=
| LinAlgError          (* numpy.linalg.LinAlgError: Singular matrix *)
| ZeroDivisionError    (* Python: float division by zero *).

Inductive result (A : Type) : Type :=
| Ok (a : A)
| Raise (e : exn).

Arguments Ok {A} a.
Arguments Raise {A} e.

Definition bind {A B : Type} (m : result A) (k : A -> result B) : result B :=
  match m with
  | Ok a => k a
  | Raise e => Raise e
  end.

Notation "x <- m ;; k" := (bind m (fun x => k))
  (at level 61, m at next level, right associativity).

(** ** NumPy arrays of fixed shape *)

Definition Vec3 : Type := (R * R * R)%type.
Definition Vec4 : Type := (R * R * R * R)%type.

(** A 3x3 matrix, a 3x4 matrix and a 4x4 matrix, each as the tuple of its
    rows; a 4x3 matrix (the transpose of a 3x4 one) likewise. *)
Definition Mat33 : Type := (Vec3 * Vec3 * Vec3)%type.
Definition Mat34 : Type := (Vec4 * Vec4 * Vec4)%type.
Definition Mat43 : Type := (Vec3 * Vec3 * Vec3 * Vec3)%type.
Definition Mat44 : Type := (Vec4 * Vec4 * Vec4 * Vec4)%type.

Definition zeros3 : Vec3 := (0, 0, 0).

Definition vadd3 (a b : Vec3) : Vec3 :=
  let '(a1, a2, a3) := a in
  let '(b1, b2, b3) := b in
  (a1 + b1, a2 + b2, a3 + b3).

Definition vsub3 (a b : Vec3) : Vec3 :=
  let '(a1, a2, a3) := a in
  let '(b1, b2, b3) := b in
  (a1 - b1, a2 - b2, a3 - b3).

(** [a / s] for an array [a] and a scalar [s]. *)
Definition vdiv3 (a : Vec3) (s : R) : Vec3 :=
  let '(a1, a2, a3) := a in (a1 / s, a2 / s, a3 / s).

Definition vdiv4 (a : Vec4) (s : R) : Vec4 :=
  let '(a1, a2, a3, a4) := a in (a1 / s, a2 / s, a3 / s, a4 / s).

Definition dot3 (a b : Vec3) : R :=
  let '(a1, a2, a3) := a in
  let '(b1, b2, b3) := b in
  a1 * b1 + a2 * b2 + a3 * b3.

Definition dot4 (a b : Vec4) : R :=
  let '(a1, a2, a3, a4) := a in
  let '(b1, b2, b3, b4) := b in
  a1 * b1 + a2 * b2 + a3 * b3 + a4 * b4.

(** [M @ v] for the shapes the notebook uses. *)
Definition matvec33 (M : Mat33) (v : Vec3) : Vec3 :=
  let '(r1, r2, r3) := M in (dot3 r1 v, dot3 r2 v, dot3 r3 v).

Definition matvec43 (M : Mat43) (v : Vec3) : Vec4 :=
  let '(r1, r2, r3, r4) := M in (dot3 r1 v, dot3 r2 v, dot3 r3 v, dot3 r4 v).

Definition matvec44 (M : Mat44) (v : Vec4) : Vec4 :=
  let '(r1, r2, r3, r4) := M in (dot4 r1 v, dot4 r2 v, dot4 r3 v, dot4 r4 v).

(** [G.T] for a 3x4 array [G]. *)
Definition transpose34 (G : Mat34) : Mat43 :=
  let '((a11, a12, a13, a14),
        (a21, a22, a23, a24),
        (a31, a32, a33, a34)) := G in
  ((a11, a21, a31), (a12, a22, a32), (a13, a23, a33), (a14, a24, a34)).

(** [np.cross(a, b)] on two arrays of shape (3,). *)
Definition np_cross (a b : Vec3) : Vec3 :=
  let '(a1, a2, a3) := a in
  let '(b1, b2, b3) := b in
  (a2 * b3 - a3 * b2, a3 * b1 - a1 * b3, a1 * b2 - a2 * b1).

Definition det33 (M : Mat33) : R :=
  let '((a, b, c), (d, e, f), (g, h, i)) := M in
  a * (e * i - f * h) - b * (d * i - f * g) + c * (d * h - e * g).

Definition adjugate33 (M : Mat33) : Mat33 :=
  let '((a, b, c), (d, e, f), (g, h, i)) := M in
  ((e * i - f * h, c * h - b * i, b * f - c * e),
   (f * g - d * i, a * i - c * g, c * d - a * f),
   (d * h - e * g, b * g - a * h, a * e - b * d)).

Definition mscale33 (M : Mat33) (s : R) : Mat33 :=
  let '(r1, r2, r3) := M in (vdiv3 r1 s, vdiv3 r2 s, vdiv3 r3 s).

(** [np.linalg.inv(M)] on a 3x3 array, in exact arithmetic: the inverse
    matrix, and [LinAlgError] when [M] is singular.  (NumPy factorizes in
    floating point and raises when it meets a pivot that is exactly zero;
    on a diagonal matrix the pivots are the diagonal entries, and the two
    readings agree.) *)
Definition np_linalg_inv (M : Mat33) : result Mat33 :=
  if Req_dec_T (det33 M) 0
  then Raise LinAlgError
  else Ok (mscale33 (adjugate33 M) (det33 M)).

Definition matmul33 (A B : Mat33) : Mat33 :=
  let '(b1, b2, b3) := B in
  let '(b11, b12, b13) := b1 in
  let '(b21, b22, b23) := b2 in
  let '(b31, b32, b33) := b3 in
  let c1 := (b11, b21, b31) in
  let c2 := (b12, b22, b32) in
  let c3 := (b13, b23, b33) in
  let '(a1, a2, a3) := A in
  ((dot3 a1 c1, dot3 a1 c2, dot3 a1 c3),
   (dot3 a2 c1, dot3 a2 c2, dot3 a2 c3),
   (dot3 a3 c1, dot3 a3 c2, dot3 a3 c3)).

Definition eye3 : Mat33 := ((1, 0, 0), (0, 1, 0), (0, 0, 1)).

(** ** [sym.Rot3] *)

(** Modelled from the spec: [sym.Rot3] is SymForce's rotation class, an
    external library.  A [Rot3] stores a quaternion as four numbers in the
    order x, y, z, w (scalar last); [to_storage] returns them and
    [from_storage] builds a [Rot3] from four numbers as they are. *)
Record Rot3 : Type := mkRot3 { qx : R; qy : R; qz : R; qw : R }.

Definition to_storage (r : Rot3) : Vec4 := (qx r, qy r, qz r, qw r).

Definition from_storage (s : Vec4) : Rot3 :=
  let '(x, y, z, w) := s in mkRot3 x y z w.

(** [Rot3.from_yaw_pitch_roll(0, 0, 0)], printed by the notebook as
    [<Rot3 [0.0, 0.0, 0.0, 1.0]>]. *)
Definition Rot3_identity : Rot3 := mkRot3 0 0 0 1.

(** Modelled from the spec: [R * v] for a [Rot3] and an array of shape (3,)
    rotates the vector by the quaternion (active rotation, body to world):
    the rotation matrix of the quaternion applied to [v]. *)
Definition Rot3_mul (r : Rot3) (v : Vec3) : Vec3 :=
  let x := qx r in let y := qy r in let z := qz r in let w := qw r in
  matvec33
    ((1 - 2 * y * y - 2 * z * z, 2 * x * y - 2 * z * w, 2 * x * z + 2 * y * w),
     (2 * x * y + 2 * z * w, 1 - 2 * x * x - 2 * z * z, 2 * y * z - 2 * x * w),
     (2 * x * z - 2 * y * w, 2 * y * z + 2 * x * w, 1 - 2 * x * x - 2 * y * y))
    v.

(** ** [dRot3] (cell 3) *)

(** The matrix [G] that [dRot3] builds from the storage of [R]. *)
Definition dRot3_G (r : Rot3) : Mat34 :=
  let '(q0, q1, q2, q3) := to_storage r in
  (( q3,  q2, - q1, - q0),
   (- q2,  q3,  q0, - q1),
   ( q1, - q0,  q3, - q2)).

Definition dRot3 (r : Rot3) (omega : Vec3) : Rot3 :=
  let G := dRot3_G r in
  let quat_dot := vdiv4 (matvec43 (transpose34 G) omega) 2 in
  from_storage quat_dot.

(** ** [Params] (cell 4) *)

Record Params : Type := mkParams {
  mass : R;
  inertia : Mat33;
  rotor_diameter : R;
  static_thrust_coefficient : R;
  static_torque_coefficient : R;
  arm_length : R;
  g : R;
  rho : R
}.

(** The constructor the dataclass generates: it stores its arguments and
    runs no check (the class has no [__post_init__]). *)
Definition Params_init (mass : R) (inertia : Mat33) (rotor_diameter : R)
    (static_thrust_coefficient static_torque_coefficient : R)
    (arm_length g rho : R) : result Params :=
  Ok (mkParams mass inertia rotor_diameter static_thrust_coefficient
        static_torque_coefficient arm_length g rho).

(** [Params()], every field at its default. *)
Definition Params_default : Params :=
  mkParams
    1.352
    ((9.8e-3, 0, 0),
     (0, 10.02e-3, 0),
     (0, 0, 18.6e-3))
    (10 * 0.0254)
    0.14553
    0.01047
    (0.3814 / 2.0)
    9.80665
    1.225.

Definition rotor_model (self : Params) (static_coefficient : R) : R :=
  rho self * static_coefficient * (rotor_diameter self ^ 4) / (4 * PI ^ 2).

Definition k_thrust (self : Params) : R :=
  rotor_model self (static_thrust_coefficient self).

Definition k_torque (self : Params) : R :=
  rotor_model self (static_torque_coefficient self).

(** ** NumPy arrays of rotor rates *)

(** The value of an [int64] result: the integer [z] wrapped around into
    the range from -2^63 to 2^63 - 1. *)
Definition wrap64 (z : Z) : Z := ((z + 2 ^ 63) mod 2 ^ 64 - 2 ^ 63)%Z.

(** An array of four rotor rates: [np.array] of floats, or of Python
    integers (dtype [int64]). *)
Inductive ndarray4 : Type :=
| Float4 (v : Vec4)
| Int4 (v : Z * Z * Z * Z).

(** ** [QuadrotorState] and [QuadrotorCommands] *)

(** The fields of [quadrotor.dynamics.QuadrotorState], in the order the
    notebook prints them. *)
Record QuadrotorState : Type := mkQuadrotorState {
  position : Vec3;
  orientation : Rot3;
  velocity : Vec3;
  angular_velocity : Vec3
}.

Record QuadrotorCommands : Type := mkQuadrotorCommands {
  rotor_rates : ndarray4
}.

(** The flat array of 13 numbers the integrator works on. *)
Definition StateVector : Type := (Vec3 * Vec3 * Vec4 * Vec3)%type.

(** [a / b] on two Python floats. *)
Definition float_div (a b : R) : result R :=
  if Req_dec_T b 0 then Raise ZeroDivisionError else Ok (a / b).

(** ** [FullQuadrotorDynamics] (cell 5) *)

(** The object: the fields of the base class that [step] reads and
    writes. *)
Record FullQuadrotorDynamics : Type := mkFullQuadrotorDynamics {
  dt : R;
  state : QuadrotorState
}.

(** The local [mixing_matrix] of [step], from its locals [L] and [m_t]. *)
Definition mixing_matrix (L m_t : R) : Mat44 :=
  ((  1,      1,      1,        1),
   (  0,      L,      0,      - L),
   (- L,      0,      L,        0),
   (m_t,  - m_t,    m_t,    - m_t)).

Section Dynamics.

(** The global [p] of the notebook ([p = Params()]); the functions below
    read it, so they take it as a section variable and the theorems say
    which instance they are about. *)
Variable p : Params.

(** [rotor_rates * rotor_rates * p.k_thrust]: on an [int64] array the
    first product is an [int64] array, whose entries wrap around, and the
    second product turns it into floats. *)
Definition rotor_thrust_model (rotor_rates : ndarray4) : Vec4 :=
  match rotor_rates with
  | Float4 (r1, r2, r3, r4) =>
      (r1 * r1 * k_thrust p, r2 * r2 * k_thrust p,
       r3 * r3 * k_thrust p, r4 * r4 * k_thrust p)
  | Int4 (z1, z2, z3, z4) =>
      (IZR (wrap64 (z1 * z1)) * k_thrust p, IZR (wrap64 (z2 * z2)) * k_thrust p,
       IZR (wrap64 (z3 * z3)) * k_thrust p, IZR (wrap64 (z4 * z4)) * k_thrust p)
  end.

(** The first half of [step]: from the rotor rates to [u1 = u[0]] and
    [u2 = u[1:4]].  The division that gives [m_t] is a division of Python
    floats. *)
Definition step_controls (input : QuadrotorCommands) : result (R * Vec3) :=
  let '(F1, F2, F3, F4) := rotor_thrust_model (rotor_rates input) in
  let L := arm_length p in
  m_t <- float_div (k_torque p) (k_thrust p) ;;
  let u := matvec44 (mixing_matrix L m_t) (F1, F2, F3, F4) in
  let '(u_0, u_1, u_2, u_3) := u in
  let u1 := u_0 in
  let u2 := (u_1, u_2, u_3) in
  Ok (u1, u2).

Definition state_derivative (t : R) (state : QuadrotorState)
    (u1 : R) (u2 : Vec3) : result QuadrotorState :=
  let R := orientation state in
  let w := angular_velocity state in
  let I := inertia p in
  let accel :=
    vdiv3 (vadd3 (0, 0, - g p) (Rot3_mul R (0, 0, u1))) (mass p) in
  let M := Rot3_mul R u2 in
  I_inv <- np_linalg_inv I ;;
  let angular_accel := matvec33 I_inv (vsub3 u2 (np_cross w (matvec33 I w))) in
  Ok (mkQuadrotorState
        (velocity state)
        (dRot3 (orientation state) (angular_velocity state))
        accel
        angular_accel).

(** [QuadrotorState.to_state_vector] and [QuadrotorState.from_state_vector]
    live in [quadrotor/dynamics.py], which is not among the sources:
    [step] is stated for any two such functions. *)
Variable to_state_vector : QuadrotorState -> StateVector.
Variable from_state_vector : StateVector -> result QuadrotorState.

(** [scipy.integrate.solve_ivp(fun, t_span, y0)], followed by
    [solution['y'][:, -1]]: SciPy's adaptive integrator, an external
    library.  Nothing is assumed about it: it is any function from the
    right-hand side, the time span and the initial vector to a final
    vector, and it may raise. *)
Variable solve_ivp :
  (R -> StateVector -> result StateVector) -> R * R -> StateVector ->
  result StateVector.

(** The local function of [step] handed to the integrator. *)
Definition state_derivative_wrapped (u1 : R) (u2 : Vec3)
    (t : R) (state : StateVector) : result StateVector :=
  s <- from_state_vector state ;;
  d <- state_derivative t s u1 u2 ;;
  Ok (to_state_vector d).

(** [step]: returns the object with its new [state], and the state it
    returns.  The [print] calls of the source write to the console only
    and are left out. *)
Definition step (self : FullQuadrotorDynamics) (t : R)
    (input : QuadrotorCommands) :
    result (FullQuadrotorDynamics * QuadrotorState) :=
  c <- step_controls input ;;
  let '(u1, u2) := c in
  let state_vector := to_state_vector (state self) in
  solution <- solve_ivp (state_derivative_wrapped u1 u2) (0, dt self) state_vector ;;
  new_state <- from_state_vector solution ;;
  let self' := mkFullQuadrotorDynamics (dt self) new_state in
  Ok (self', state self').

End Dynamics.

(** The state the notebook starts from: at the origin, at rest, level. *)
Definition rest_state (pos : Vec3) : QuadrotorState :=
  mkQuadrotorState pos Rot3_identity zeros3 zeros3.

Definition initial_state : QuadrotorState := rest_state zeros3.

(** ** The controllers (cell 6) *)

(** [TestController.step]: the arguments are ignored; the rates are an
    array of integers. *)
Definition TestController_step (t : R) : QuadrotorCommands :=
  mkQuadrotorCommands (Int4 (380, 340, 380, 340)%Z).

(** [BouncyController.step]: only the time is read; the rates are
    floats. *)
Definition BouncyController_step (t : R) : QuadrotorCommands :=
  let wave := sin (t * 2 * 2 * PI + PI / 2) in
  let strength := 300 in
  let offset := - 60 in
  mkQuadrotorCommands
    (Float4
       (360 + wave * strength + offset, 360 + wave * strength + offset,
        360 + wave * strength + offset, 360 + wave * strength + offset)).

(** [MoveAndStopController.step]: only the time is read; the rates are
    arrays of integers. *)
Definition MoveAndStopController_step (t : R) : QuadrotorCommands :=
  if Rlt_dec t 1 then mkQuadrotorCommands (Int4 (360, 359, 358, 359)%Z)
  else if Rlt_dec t 2.5 then mkQuadrotorCommands (Int4 (370, 372, 374, 372)%Z)
  else mkQuadrotorCommands (Int4 (363, 363, 363, 363)%Z).

(** ** Vocabulary of the statements *)

Definition vneg4 (a : Vec4) : Vec4 :=
  let '(a1, a2, a3, a4) := a in (- a1, - a2, - a3, - a4).

(** [- a] on an array of rates; on [int64] the negation wraps around. *)
Definition neg_rates (a : ndarray4) : ndarray4 :=
  match a with
  | Float4 v => Float4 (vneg4 v)
  | Int4 (z1, z2, z3, z4) =>
      Int4 (wrap64 (- z1), wrap64 (- z2), wrap64 (- z3), wrap64 (- z4))
  end.

(** The four rates as numbers. *)
Definition rates_value (a : ndarray4) : Vec4 :=
  match a with
  | Float4 v => v
  | Int4 (z1, z2, z3, z4) => (IZR z1, IZR z2, IZR z3, IZR z4)
  end.

(** The largest [int64] magnitude whose square is still an [int64]:
    3037000499^2 < 2^63 <= 3037000500^2. *)
Definition int64_square_bound : Z := 3037000499%Z.

(** No square of a rate wraps around: the array holds floats, or integers
    within the bound. *)
Definition exact_rates (a : ndarray4) : Prop :=
  match a with
  | Float4 _ => True
  | Int4 (z1, z2, z3, z4) =>
      (Z.abs z1 <= int64_square_bound)%Z /\ (Z.abs z2 <= int64_square_bound)%Z
      /\ (Z.abs z3 <= int64_square_bound)%Z /\ (Z.abs z4 <= int64_square_bound)%Z
  end.

(** The vector of the squares of [v], each times [k]. *)
Definition squares_times (v : Vec4) (k : R) : Vec4 :=
  let '(r1, r2, r3, r4) := v in (r1 ^ 2 * k, r2 ^ 2 * k, r3 ^ 2 * k, r4 ^ 2 * k).

(** [u[0]] and [u[1:4]] of an array [u] of shape (4,). *)
Definition split_controls (u : Vec4) : R * Vec3 :=
  let '(u_0, u_1, u_2, u_3) := u in (u_0, (u_1, u_2, u_3)).

Definition row0 (M : Mat44) : Vec4 := let '(r0, _, _, _) := M in r0.

Definition row1 (M : Mat44) : Vec4 := let '(_, r1, _, _) := M in r1.

Definition row2 (M : Mat44) : Vec4 := let '(_, _, r2, _) := M in r2.

Definition row3 (M : Mat44) : Vec4 := let '(_, _, _, r3) := M in r3.

(** Every entry of a row satisfies [P]. *)
Definition all_entries (P : R -> Prop) (v : Vec4) : Prop :=
  let '(a, b, c, d) := v in P a /\ P b /\ P c /\ P d.

Definition vscale3 (s : R) (a : Vec3) : Vec3 :=
  let '(a1, a2, a3) := a in (s * a1, s * a2, s * a3).

Definition vscale4 (s : R) (a : Vec4) : Vec4 :=
  let '(a1, a2, a3, a4) := a in (s * a1, s * a2, s * a3, s * a4).

Definition vadd4 (a b : Vec4) : Vec4 :=
  let '(a1, a2, a3, a4) := a in
  let '(b1, b2, b3, b4) := b in
  (a1 + b1, a2 + b2, a3 + b3, a4 + b4).

(** [G^T w] as mathematics has it: the combination of the rows of [G]
    with the components of [w] as coefficients. *)
Definition transpose_apply (G : Mat34) (w : Vec3) : Vec4 :=
  let '(g1, g2, g3) := G in
  let '(wx, wy, wz) := w in
  vadd4 (vadd4 (vscale4 wx g1) (vscale4 wy g2)) (vscale4 wz g3).

(** The translational acceleration as the comment above the assignment to
    [accel] has it: gravity, plus the rotated thrust divided by the mass. *)
Definition accel_documented (p : Params) (s : QuadrotorState) (u1 : R) : Vec3 :=
  vadd3 (0, 0, - g p)
        (vdiv3 (Rot3_mul (orientation s) (0, 0, u1)) (mass p)).

(** A diagonal 3x3 matrix. *)
Definition diag3 (a b c : R) : Mat33 := ((a, 0, 0), (0, b, 0), (0, 0, c)).

(** An inertia tensor with no resistance about the body Z axis. *)
Definition singular_inertia : Mat33 :=
  ((9.8e-3, 0, 0),
   (0, 10.02e-3, 0),
   (0, 0, 0)).





(** * Properties *)

(** ** Linear algebra *)

Ltac destruct_vec3 v :=
  let a := fresh v "x" in
  let b := fresh v "y" in
  let c := fresh v "z" in
  destruct v as [[a b] c].

Ltac destruct_vec4 v :=
  let a := fresh v "1" in
  let b := fresh v "2" in
  let c := fresh v "3" in
  let d := fresh v "4" in
  destruct v as [[[a b] c] d].

Ltac destruct_mat33 M :=
  let r1 := fresh "r" in
  let r2 := fresh "r" in
  let r3 := fresh "r" in
  destruct M as [[r1 r2] r3];
  destruct_vec3 r1; destruct_vec3 r2; destruct_vec3 r3.

Lemma vec3_eq (a b c a' b' c' : R) :
  a = a' -> b = b' -> c = c' -> (a, b, c) = (a', b', c').
Proof. intros; subst; reflexivity. Qed.

Lemma vec4_eq (a b c d a' b' c' d' : R) :
  a = a' -> b = b' -> c = c' -> d = d' -> (a, b, c, d) = (a', b', c', d').
Proof. intros; subst; reflexivity. Qed.

Lemma np_linalg_inv_ok (M : Mat33) :
  det33 M <> 0 ->
  np_linalg_inv M = Ok (mscale33 (adjugate33 M) (det33 M)).
Proof.
  intros Hdet. unfold np_linalg_inv.
  destruct (Req_dec_T (det33 M) 0) as [E | _]; [contradiction | reflexivity].
Qed.

Lemma np_linalg_inv_singular (M : Mat33) :
  det33 M = 0 -> np_linalg_inv M = Raise LinAlgError.
Proof.
  intros Hdet. unfold np_linalg_inv.
  destruct (Req_dec_T (det33 M) 0) as [_ | N]; [reflexivity | contradiction].
Qed.

(** What [np_linalg_inv] returns is the inverse, on both sides. *)
Lemma np_linalg_inv_inverse (M N : Mat33) :
  np_linalg_inv M = Ok N ->
  matmul33 N M = eye3 /\ matmul33 M N = eye3.
Proof.
  unfold np_linalg_inv.
  destruct (Req_dec_T (det33 M) 0) as [E | Hdet]; [discriminate |].
  intros H; injection H as <-.
  destruct_mat33 M. unfold det33 in Hdet.
  split; unfold matmul33, mscale33, adjugate33, det33, vdiv3, dot3, eye3;
    repeat apply f_equal2; field; exact Hdet.
Qed.

(** ** The state derivative, unfolded *)

Section DerivativeFacts.

Variable p : Params.

Lemma state_derivative_ok (t : R) (s : QuadrotorState) (u1 : R) (u2 : Vec3) :
  det33 (inertia p) <> 0 ->
  state_derivative p t s u1 u2 =
  Ok (mkQuadrotorState
        (velocity s)
        (dRot3 (orientation s) (angular_velocity s))
        (vdiv3 (vadd3 (0, 0, - g p) (Rot3_mul (orientation s) (0, 0, u1)))
               (mass p))
        (matvec33 (mscale33 (adjugate33 (inertia p)) (det33 (inertia p)))
           (vsub3 u2 (np_cross (angular_velocity s)
                        (matvec33 (inertia p) (angular_velocity s)))))).
Proof.
  intros Hdet. unfold state_derivative.
  rewrite (np_linalg_inv_ok _ Hdet). reflexivity.
Qed.

Lemma state_derivative_singular (t : R) (s : QuadrotorState) (u1 : R) (u2 : Vec3) :
  det33 (inertia p) = 0 ->
  state_derivative p t s u1 u2 = Raise LinAlgError.
Proof.
  intros Hdet. unfold state_derivative.
  rewrite (np_linalg_inv_singular _ Hdet). reflexivity.
Qed.

End DerivativeFacts.

Lemma det_inertia_default : det33 (inertia Params_default) <> 0.
Proof. unfold det33, Params_default, inertia. lra. Qed.

(** ** The default rotor coefficients *)

Lemma PI_gt_2 : 2 < PI.
Proof. pose proof PI2_1. lra. Qed.

Lemma rotor_model_default_bounds (c : R) :
  0 < c -> c < 1 ->
  0 < rotor_model Params_default c < 1 / 1000.
Proof.
  intros Hc0 Hc1. unfold rotor_model, Params_default, rho, rotor_diameter.
  pose proof PI_gt_2 as HPI.
  assert (Hden : 16 < 4 * PI ^ 2) by nra.
  assert (Hinv : 0 < / (4 * PI ^ 2) < / 16).
  { split.
    - apply Rinv_0_lt_compat. lra.
    - apply Rinv_lt_contravar; [nra | exact Hden]. }
  assert (Hnum : 0 < 1.225 * c * (10 * 0.0254) ^ 4 < 1 / 100) by (split; nra).
  change (0 < 1.225 * c * (10 * 0.0254) ^ 4 * / (4 * PI ^ 2) < 1 / 1000).
  generalize dependent (/ (4 * PI ^ 2)). intros i Hi.
  generalize dependent (1.225 * c * (10 * 0.0254) ^ 4). intros n Hn.
  split; nra.
Qed.

Lemma k_thrust_default_bounds : 0 < k_thrust Params_default < 1 / 1000.
Proof.
  apply rotor_model_default_bounds;
    unfold Params_default, static_thrust_coefficient; lra.
Qed.

Lemma k_torque_default_bounds : 0 < k_torque Params_default < 1 / 1000.
Proof.
  apply rotor_model_default_bounds;
    unfold Params_default, static_torque_coefficient; lra.
Qed.

Lemma rotor_model_pos (p : Params) (c : R) :
  0 < rho p -> rotor_diameter p <> 0 -> 0 < c -> 0 < rotor_model p c.
Proof.
  intros Hrho Hd Hc. unfold rotor_model.
  pose proof PI_RGT_0 as HPI.
  assert (Hd4 : 0 < rotor_diameter p ^ 4).
  { replace (rotor_diameter p ^ 4)
      with ((rotor_diameter p * rotor_diameter p)
            * (rotor_diameter p * rotor_diameter p)) by ring.
    assert (0 < rotor_diameter p * rotor_diameter p) by nra. nra. }
  apply Rdiv_lt_0_compat; [| nra].
  apply Rmult_lt_0_compat; [nra | exact Hd4].
Qed.

Lemma k_thrust_default_neq0 : k_thrust Params_default <> 0.
Proof. pose proof k_thrust_default_bounds. lra. Qed.

Lemma float_div_ok (a b : R) : b <> 0 -> float_div a b = Ok (a / b).
Proof.
  intros Hb. unfold float_div.
  destruct (Req_dec_T b 0) as [E | _]; [contradiction | reflexivity].
Qed.

Lemma float_div_zero (a b : R) : b = 0 -> float_div a b = Raise ZeroDivisionError.
Proof.
  intros Hb. unfold float_div.
  destruct (Req_dec_T b 0) as [_ | N]; [reflexivity | contradiction].
Qed.

(** ** Integer rates *)

Lemma wrap64_small (z : Z) :
  (- 2 ^ 63 <= z < 2 ^ 63)%Z -> wrap64 z = z.
Proof.
  intros Hz. unfold wrap64. rewrite Z.mod_small by lia. ring.
Qed.

Lemma wrap64_shift (z k : Z) : wrap64 (z + k * 2 ^ 64) = wrap64 z.
Proof.
  unfold wrap64.
  replace (z + k * 2 ^ 64 + 2 ^ 63)%Z with (z + 2 ^ 63 + k * 2 ^ 64)%Z by ring.
  rewrite Z_mod_plus_full. reflexivity.
Qed.

Lemma wrap64_is_shift (z : Z) : exists k, wrap64 z = (z + k * 2 ^ 64)%Z.
Proof.
  exists (- ((z + 2 ^ 63) / 2 ^ 64))%Z. unfold wrap64.
  rewrite Z.mod_eq by lia. ring.
Qed.

(** The wrapped square of a wrapped negation is the wrapped square. *)
Lemma wrap64_square_neg (z : Z) :
  wrap64 (wrap64 (- z) * wrap64 (- z)) = wrap64 (z * z).
Proof.
  destruct (wrap64_is_shift (- z)) as [k Hk]. rewrite Hk.
  replace ((- z + k * 2 ^ 64) * (- z + k * 2 ^ 64))%Z
    with (z * z + (k * k * 2 ^ 64 - 2 * z * k) * 2 ^ 64)%Z by ring.
  apply wrap64_shift.
Qed.

Lemma wrap64_square_exact (z : Z) :
  (Z.abs z <= int64_square_bound)%Z -> IZR (wrap64 (z * z)) = IZR z ^ 2.
Proof.
  unfold int64_square_bound. intros Hz.
  rewrite wrap64_small by nia.
  rewrite mult_IZR. ring.
Qed.

Ltac compute_wrap64 :=
  repeat match goal with
  | |- context [wrap64 ?z] =>
      let v := eval vm_compute in (wrap64 z) in
      change (wrap64 z) with v
  end.

(** ** The rotor thrust model *)

(** Without wrap-around the thrusts are the squares of the rates times
    [k_thrust]. *)
Lemma rotor_thrust_model_exact (p : Params) (a : ndarray4) :
  exact_rates a ->
  rotor_thrust_model p a = squares_times (rates_value a) (k_thrust p).
Proof.
  destruct a as [[[[r1 r2] r3] r4] | [[[z1 z2] z3] z4]];
    cbn [exact_rates rates_value rotor_thrust_model squares_times].
  - intros _. apply vec4_eq; ring.
  - intros (H1 & H2 & H3 & H4).
    rewrite !wrap64_square_exact by assumption. reflexivity.
Qed.

Lemma rotor_thrust_model_neg (p : Params) (a : ndarray4) :
  rotor_thrust_model p (neg_rates a) = rotor_thrust_model p a.
Proof.
  destruct a as [[[[r1 r2] r3] r4] | [[[z1 z2] z3] z4]];
    cbn [neg_rates vneg4 rotor_thrust_model].
  - apply vec4_eq; ring.
  - rewrite !wrap64_square_neg. reflexivity.
Qed.

(** C6, as stated, fails: at the [int64] rate 4000000000 the square wraps
    around and the thrust is a negative multiple of [k_thrust], not the
    rate squared times [k_thrust]. *)
Lemma C6_int64_square_wraps :
  exists F,
    rotor_thrust_model Params_default
      (Int4 (4000000000, 4000000000, 4000000000, 4000000000)%Z) = (F, F, F, F)
    /\ F = -2446744073709551616 * k_thrust Params_default
    /\ F <> 4000000000 ^ 2 * k_thrust Params_default.
Proof.
  pose proof k_thrust_default_bounds as Hk.
  eexists. cbn [rotor_thrust_model]. compute_wrap64.
  split; [reflexivity |]. split; [reflexivity |].
  generalize dependent (k_thrust Params_default). intros k Hk. lra.
Qed.

(** C6, amended. For every array of float rates, negative entries
    included, and for every array of [int64] rates of magnitude at most
    3037000499, [rotor_thrust_model] returns the vector whose i-th
    component is the i-th rate squared times [k_thrust]; and for every
    array whatever, an array and its negation give the same thrusts. *)
Theorem C6_rotor_thrust_model_squares (p : Params) (a : ndarray4) :
  rotor_thrust_model p (neg_rates a) = rotor_thrust_model p a
  /\ (exact_rates a ->
      rotor_thrust_model p a = squares_times (rates_value a) (k_thrust p)).
Proof.
  split; [apply rotor_thrust_model_neg | apply rotor_thrust_model_exact].
Qed.

Lemma C6_rotor_thrust_model_squares_witness :
  rotor_thrust_model Params_default (Int4 (- 380, 340, - 380, 340)%Z) =
  squares_times (-380, 340, -380, 340) (k_thrust Params_default).
Proof.
  apply (proj2 (C6_rotor_thrust_model_squares Params_default
                  (Int4 (- 380, 340, - 380, 340)%Z))).
  cbn. unfold int64_square_bound. lia.
Defined.

(** ** The mixing matrix *)

Lemma step_controls_mix (p : Params) (input : QuadrotorCommands) :
  k_thrust p <> 0 ->
  step_controls p input =
  Ok (split_controls
        (matvec44 (mixing_matrix (arm_length p) (k_torque p / k_thrust p))
           (rotor_thrust_model p (rotor_rates input)))).
Proof.
  intros Hk. unfold step_controls.
  destruct (rotor_thrust_model p (rotor_rates input)) as [[[F1 F2] F3] F4].
  rewrite (float_div_ok _ _ Hk). reflexivity.
Qed.

Lemma step_controls_zero_division (p : Params) (input : QuadrotorCommands) :
  k_thrust p = 0 -> step_controls p input = Raise ZeroDivisionError.
Proof.
  intros Hk. unfold step_controls.
  destruct (rotor_thrust_model p (rotor_rates input)) as [[[F1 F2] F3] F4].
  rewrite (float_div_zero _ _ Hk). reflexivity.
Qed.

Lemma mixing_matrix_apply (L m_t F1 F2 F3 F4 : R) :
  matvec44 (mixing_matrix L m_t) (F1, F2, F3, F4) =
  (F1 + F2 + F3 + F4, L * (F2 - F4), L * (F3 - F1),
   m_t * F1 - m_t * F2 + m_t * F3 - m_t * F4).
Proof. unfold mixing_matrix, matvec44, dot4. apply vec4_eq; ring. Qed.

Lemma step_controls_ok (p : Params) (a : ndarray4) (F1 F2 F3 F4 : R) :
  k_thrust p <> 0 ->
  rotor_thrust_model p a = (F1, F2, F3, F4) ->
  step_controls p (mkQuadrotorCommands a) =
  Ok (F1 + F2 + F3 + F4,
      (arm_length p * (F2 - F4), arm_length p * (F3 - F1),
       k_torque p / k_thrust p * (F1 - F2 + F3 - F4))).
Proof.
  intros Hk HF. rewrite (step_controls_mix _ _ Hk). cbn [rotor_rates].
  rewrite HF, mixing_matrix_apply. unfold split_controls.
  apply f_equal. apply f_equal2; [reflexivity | apply vec3_eq; ring].
Qed.

(** C5. [step] applies its mixing matrix to the four rotor forces: for
    every vector of forces the matrix gives [u1 = F1 + F2 + F3 + F4]; rows
    1 and 2 hold only 0, [L] and [- L], with [L] the arm length, and turn
    differential thrust into roll and pitch torque; row 3 holds
    [m_t = k_torque / k_thrust] with signs alternating by rotor index, and
    gives the yaw torque. *)
Theorem C5_mixing_rows (p : Params) (input : QuadrotorCommands) :
  k_thrust p <> 0 ->
  let L := arm_length p in
  let m_t := k_torque p / k_thrust p in
  let M := mixing_matrix L m_t in
  step_controls p input =
    Ok (split_controls (matvec44 M (rotor_thrust_model p (rotor_rates input))))
  /\ (forall F1 F2 F3 F4 : R,
        matvec44 M (F1, F2, F3, F4) =
        (F1 + F2 + F3 + F4,
         L * (F2 - F4),
         L * (F3 - F1),
         m_t * F1 - m_t * F2 + m_t * F3 - m_t * F4))
  /\ row0 M = (1, 1, 1, 1)
  /\ all_entries (fun x => x = 0 \/ x = L \/ x = - L) (row1 M)
  /\ all_entries (fun x => x = 0 \/ x = L \/ x = - L) (row2 M)
  /\ row3 M = (m_t, - m_t, m_t, - m_t).
Proof.
  intros Hk L m_t M.
  split; [apply step_controls_mix; exact Hk |].
  split; [intros; apply mixing_matrix_apply |].
  unfold M, mixing_matrix. cbn. repeat split; auto.
Qed.

Lemma C5_mixing_rows_witness :
  let L := arm_length Params_default in
  let m_t := k_torque Params_default / k_thrust Params_default in
  let M := mixing_matrix L m_t in
  step_controls Params_default (TestController_step 0) =
    Ok (split_controls
          (matvec44 M
             (rotor_thrust_model Params_default
                (rotor_rates (TestController_step 0)))))
  /\ (forall F1 F2 F3 F4 : R,
        matvec44 M (F1, F2, F3, F4) =
        (F1 + F2 + F3 + F4,
         L * (F2 - F4),
         L * (F3 - F1),
         m_t * F1 - m_t * F2 + m_t * F3 - m_t * F4))
  /\ row0 M = (1, 1, 1, 1)
  /\ all_entries (fun x => x = 0 \/ x = L \/ x = - L) (row1 M)
  /\ all_entries (fun x => x = 0 \/ x = L \/ x = - L) (row2 M)
  /\ row3 M = (m_t, - m_t, m_t, - m_t).
Proof.
  apply (C5_mixing_rows Params_default (TestController_step 0)).
  exact k_thrust_default_neq0.
Defined.

(** ** The quaternion derivative *)

(** C7. For every orientation with components (q0, q1, q2, q3) in
    scalar-last storage order and every body-frame angular velocity,
    [dRot3] returns (1/2) G^T omega, where G is the 3x4 matrix built from
    the components of that same orientation. *)
Theorem C7_dRot3_half_Gt_omega (q0 q1 q2 q3 : R) (omega : Vec3) :
  let r := from_storage (q0, q1, q2, q3) in
  let G := (( q3,  q2, - q1, - q0),
            (- q2,  q3,  q0, - q1),
            ( q1, - q0,  q3, - q2)) in
  dRot3_G r = G
  /\ to_storage (dRot3 r omega) = vscale4 (1 / 2) (transpose_apply G omega).
Proof.
  intros r G. split; [reflexivity |].
  destruct_vec3 omega.
  unfold dRot3, dRot3_G, to_storage, r, G. cbn.
  apply vec4_eq; field.
Qed.

(** The derivative is half the quaternion product of the orientation with
    the pure quaternion of the body-frame angular velocity. *)
Lemma dRot3_quaternion_product (x y z w wx wy wz : R) :
  to_storage (dRot3 (mkRot3 x y z w) (wx, wy, wz)) =
  vscale4 (1 / 2)
    (w * wx + (y * wz - z * wy),
     w * wy + (z * wx - x * wz),
     w * wz + (x * wy - y * wx),
     - (x * wx + y * wy + z * wz)).
Proof. unfold dRot3, dRot3_G, to_storage. cbn. apply vec4_eq; field. Qed.

(** The derivative is orthogonal to the quaternion: to first order the
    norm does not change. *)
Lemma dRot3_orthogonal (r : Rot3) (omega : Vec3) :
  dot4 (to_storage r) (to_storage (dRot3 r omega)) = 0.
Proof.
  destruct r as [x y z w]. destruct_vec3 omega.
  unfold dRot3, dRot3_G, to_storage. cbn. field.
Qed.

(** ** The state derivative *)

(** C10. [state_derivative] does not depend on its time argument. *)
Theorem C10_state_derivative_time_invariant
    (p : Params) (t1 t2 : R) (s : QuadrotorState) (u1 : R) (u2 : Vec3) :
  state_derivative p t1 s u1 u2 = state_derivative p t2 s u1 u2.
Proof. reflexivity. Qed.

(** C2. For every state and every torque input [u2], the
    angular-velocity-derivative field of [state_derivative] is the inverse
    of the inertia tensor applied to [u2] minus the cross product of the
    angular velocity with the inertia tensor times the angular velocity;
    [u2] enters as it is, whatever the orientation of the state. *)
Theorem C2_angular_acceleration_euler
    (p : Params) (t : R) (s : QuadrotorState) (u1 : R) (u2 : Vec3) :
  det33 (inertia p) <> 0 ->
  exists (I_inv : Mat33) (d : QuadrotorState),
    np_linalg_inv (inertia p) = Ok I_inv
    /\ matmul33 I_inv (inertia p) = eye3
    /\ state_derivative p t s u1 u2 = Ok d
    /\ angular_velocity d =
       matvec33 I_inv
         (vsub3 u2 (np_cross (angular_velocity s)
                      (matvec33 (inertia p) (angular_velocity s))))
    /\ forall (r : Rot3) (pos vel : Vec3) (u1' : R),
         exists d',
           state_derivative p t
             (mkQuadrotorState pos r vel (angular_velocity s)) u1' u2 = Ok d'
           /\ angular_velocity d' = angular_velocity d.
Proof.
  intros Hdet.
  exists (mscale33 (adjugate33 (inertia p)) (det33 (inertia p))).
  eexists. split; [apply np_linalg_inv_ok; exact Hdet |].
  split; [apply (np_linalg_inv_inverse (inertia p)), np_linalg_inv_ok; exact Hdet |].
  split; [apply state_derivative_ok; exact Hdet |].
  split; [reflexivity |].
  intros r pos vel u1'. eexists.
  split; [apply state_derivative_ok; exact Hdet | reflexivity].
Qed.

Lemma C2_angular_acceleration_euler_witness :
  det33 (inertia Params_default) <> 0
  /\ exists (I_inv : Mat33) (d : QuadrotorState),
    np_linalg_inv (inertia Params_default) = Ok I_inv
    /\ matmul33 I_inv (inertia Params_default) = eye3
    /\ state_derivative Params_default 0 initial_state 5 (1, 2, 3) = Ok d
    /\ angular_velocity d =
       matvec33 I_inv
         (vsub3 (1, 2, 3)
            (np_cross (angular_velocity initial_state)
               (matvec33 (inertia Params_default)
                  (angular_velocity initial_state))))
    /\ forall (r : Rot3) (pos vel : Vec3) (u1' : R),
         exists d',
           state_derivative Params_default 0
             (mkQuadrotorState pos r vel (angular_velocity initial_state))
             u1' (1, 2, 3) = Ok d'
           /\ angular_velocity d' = angular_velocity d.
Proof.
  split.
  - exact det_inertia_default.
  - apply (C2_angular_acceleration_euler Params_default 0 initial_state 5 (1, 2, 3)).
    exact det_inertia_default.
Defined.

(** *** Translational acceleration *)

(** What [state_derivative] puts in the velocity field: the sum of gravity
    and rotated thrust, all of it divided by the mass. *)
Lemma state_derivative_velocity
    (p : Params) (t : R) (s d : QuadrotorState) (u1 : R) (u2 : Vec3) :
  state_derivative p t s u1 u2 = Ok d ->
  velocity d =
  vdiv3 (vadd3 (0, 0, - g p) (Rot3_mul (orientation s) (0, 0, u1))) (mass p).
Proof.
  unfold state_derivative.
  destruct (np_linalg_inv (inertia p)) as [I_inv | e]; cbn; [| discriminate].
  intros H; injection H as <-. reflexivity.
Qed.

(** With the default parameters the velocity field differs from the
    documented acceleration at every state and every input. *)
Lemma velocity_field_never_documented
    (t : R) (s : QuadrotorState) (u1 : R) (u2 : Vec3) :
  exists d,
    state_derivative Params_default t s u1 u2 = Ok d
    /\ velocity d <> accel_documented Params_default s u1.
Proof.
  eexists. split; [apply state_derivative_ok, det_inertia_default |].
  cbn [velocity]. unfold accel_documented.
  destruct (Rot3_mul (orientation s) (0, 0, u1)) as [[a b] c].
  unfold vadd3, vdiv3, Params_default, g, mass.
  intros H. injection H as _ _ Hz. lra.
Qed.

(** C1. At rest, level, with zero thrust, [state_derivative] returns the
    velocity derivative (0, 0, - g / mass), which is not the documented
    gravity (0, 0, - g) plus thrust over mass: the gravity term is divided
    by the mass too. *)
Theorem C1_gravity_term_divided_by_mass :
  exists d,
    state_derivative Params_default 0 initial_state 0 zeros3 = Ok d
    /\ velocity d = (0, 0, - 9.80665 / 1.352)
    /\ accel_documented Params_default initial_state 0 = (0, 0, - 9.80665)
    /\ velocity d <> accel_documented Params_default initial_state 0.
Proof.
  eexists. split; [apply state_derivative_ok, det_inertia_default |].
  cbn [velocity]. unfold accel_documented, initial_state, rest_state.
  cbn [orientation]. unfold Rot3_mul, Rot3_identity, matvec33, dot3.
  cbn [qx qy qz qw]. unfold vadd3, vdiv3, Params_default, g, mass.
  split; [apply vec3_eq; lra |].
  split; [apply vec3_eq; lra |].
  intros H. injection H as _ _ Hz. lra.
Qed.

(** *** Zero input at rest *)

(** C4. At rest with all four rotor rates zero, [step] computes [u1 = 0]
    and [u2 = 0], and [state_derivative] then returns zero angular
    acceleration and the velocity derivative (0, 0, - g / mass), which is
    not (0, 0, - g). *)
Theorem C4_zero_input_at_rest (pos : Vec3) (t : R) :
  step_controls Params_default (mkQuadrotorCommands (Float4 (0, 0, 0, 0))) =
    Ok (0, zeros3)
  /\ exists d,
       state_derivative Params_default t (rest_state pos) 0 zeros3 = Ok d
       /\ angular_velocity d = zeros3
       /\ velocity d = (0, 0, - 9.80665 / 1.352)
       /\ velocity d <> (0, 0, - g Params_default).
Proof.
  split.
  - rewrite (step_controls_ok Params_default (Float4 (0, 0, 0, 0))
               (0 * 0 * k_thrust Params_default) (0 * 0 * k_thrust Params_default)
               (0 * 0 * k_thrust Params_default) (0 * 0 * k_thrust Params_default)
               k_thrust_default_neq0 eq_refl).
    unfold zeros3. apply f_equal.
    apply f_equal2; [ring | apply vec3_eq; ring].
  - eexists. split; [apply state_derivative_ok, det_inertia_default |].
    cbn [velocity angular_velocity]. unfold rest_state.
    cbn [orientation angular_velocity].
    unfold Rot3_mul, Rot3_identity, matvec33, mscale33, adjugate33, det33,
      np_cross, vsub3, vadd3, vdiv3, dot3, zeros3, Params_default.
    cbn [qx qy qz qw inertia g mass].
    split; [apply vec3_eq; lra |].
    split; [apply vec3_eq; lra |].
    intros H. injection H as Hz. lra.
Qed.

(** *** Validation of the inertia tensor *)

(** C9, as stated, fails: [Params] is constructed with a singular inertia
    tensor without any error, and the inversion inside [state_derivative]
    is the first thing to fail. *)
Lemma C9_singular_inertia_accepted :
  exists p,
    Params_init 1.352 singular_inertia (10 * 0.0254) 0.14553 0.01047
      (0.3814 / 2.0) 9.80665 1.225 = Ok p
    /\ det33 (inertia p) = 0
    /\ state_derivative p 0 initial_state 0 zeros3 = Raise LinAlgError.
Proof.
  eexists. split; [reflexivity |].
  assert (Hdet : det33 singular_inertia = 0)
    by (unfold det33, singular_inertia; lra).
  split; [exact Hdet |].
  apply state_derivative_singular. exact Hdet.
Qed.

Lemma det33_diag3 (a b c : R) : det33 (diag3 a b c) = a * b * c.
Proof. unfold det33, diag3. ring. Qed.

(** C9, amended. Constructing [Params] never fails and stores the inertia
    tensor it is given, whatever it is: nothing is checked at
    construction.  [state_derivative] inverts the tensor at every call, and
    that inversion is where a bad tensor first fails: for a diagonal
    tensor, at every state and input [state_derivative] raises
    [LinAlgError] exactly when a diagonal entry is zero, and returns a
    result exactly when none is. *)
Theorem C9_inertia_checked_only_by_inversion
    (mass0 : R) (inertia0 : Mat33) (Ixx Iyy Izz : R) (rotor_diameter0 : R)
    (thrust_coefficient0 torque_coefficient0 arm_length0 g0 rho0 : R) :
  (exists p,
     Params_init mass0 inertia0 rotor_diameter0 thrust_coefficient0
       torque_coefficient0 arm_length0 g0 rho0 = Ok p
     /\ inertia p = inertia0)
  /\ exists p,
       Params_init mass0 (diag3 Ixx Iyy Izz) rotor_diameter0
         thrust_coefficient0 torque_coefficient0 arm_length0 g0 rho0 = Ok p
       /\ forall (t : R) (s : QuadrotorState) (u1 : R) (u2 : Vec3),
            (state_derivative p t s u1 u2 = Raise LinAlgError
             <-> Ixx = 0 \/ Iyy = 0 \/ Izz = 0)
            /\ ((exists d, state_derivative p t s u1 u2 = Ok d)
                <-> Ixx <> 0 /\ Iyy <> 0 /\ Izz <> 0).
Proof.
  split; [eexists; split; reflexivity |].
  eexists. split; [reflexivity |].
  intros t s u1 u2.
  assert (Hzero : det33 (diag3 Ixx Iyy Izz) = 0 <-> Ixx = 0 \/ Iyy = 0 \/ Izz = 0).
  { rewrite det33_diag3. split.
    - intros H. apply Rmult_integral in H. destruct H as [H | H]; [| auto].
      apply Rmult_integral in H. destruct H; auto.
    - intros [H | [H | H]]; rewrite H; ring. }
  destruct (Req_dec_T (det33 (diag3 Ixx Iyy Izz)) 0) as [E | N].
  - pose proof (proj1 Hzero E) as Hz.
    split; split.
    + intros _. exact Hz.
    + intros _. apply state_derivative_singular. exact E.
    + intros [d Hd].
      rewrite state_derivative_singular in Hd by exact E. discriminate.
    + intros (Hx & Hy & Hz'). destruct Hz as [H | [H | H]]; contradiction.
  - split; split.
    + intros H. rewrite state_derivative_ok in H by exact N. discriminate.
    + intros Hz. exfalso. apply N, Hzero, Hz.
    + intros _. repeat split; intros H; apply N, Hzero; auto.
    + intros _. eexists. apply state_derivative_ok. exact N.
Qed.

(** *** Yaw-only perturbations *)







(** * Further properties of the code *)

(** ** Rotor coefficients *)

(** X1. The ratio [m_t = k_torque / k_thrust] that [step] uses for the yaw
    row is the ratio of the two static coefficients: air density, rotor
    diameter and pi cancel. *)
Theorem X1_torque_thrust_ratio (p : Params) :
  rho p <> 0 ->
  rotor_diameter p <> 0 ->
  static_thrust_coefficient p <> 0 ->
  k_torque p / k_thrust p =
  static_torque_coefficient p / static_thrust_coefficient p.
Proof.
  intros Hrho Hd Hc. unfold k_torque, k_thrust, rotor_model.
  pose proof PI_neq0 as HPI.
  field. repeat split; assumption.
Qed.

Lemma X1_torque_thrust_ratio_witness :
  k_torque Params_default / k_thrust Params_default = 0.01047 / 0.14553.
Proof.
  apply (X1_torque_thrust_ratio Params_default);
    unfold Params_default, rho, rotor_diameter, static_thrust_coefficient; lra.
Defined.

(** X2. With positive air density and thrust coefficient and a nonzero
    rotor diameter, and rates whose squares do not wrap around (floats of
    any sign, or integers of magnitude at most 3037000499), no rotor force
    is negative, the total thrust [u1] is not negative, and it is zero
    only when all four rates are zero. *)
Theorem X2_thrust_never_negative (p : Params) (a : ndarray4) :
  0 < rho p ->
  rotor_diameter p <> 0 ->
  0 < static_thrust_coefficient p ->
  exact_rates a ->
  all_entries (fun F => 0 <= F) (rotor_thrust_model p a)
  /\ exists u1 u2,
       step_controls p (mkQuadrotorCommands a) = Ok (u1, u2)
       /\ 0 <= u1
       /\ (u1 = 0 <-> rates_value a = (0, 0, 0, 0)).
Proof.
  intros Hrho Hd Hc Ha.
  pose proof (rotor_model_pos p _ Hrho Hd Hc) as Hk. fold (k_thrust p) in Hk.
  assert (Hk0 : k_thrust p <> 0) by lra.
  pose proof (rotor_thrust_model_exact p a Ha) as HF.
  destruct (rates_value a) as [[[r1 r2] r3] r4]. unfold squares_times in HF.
  rewrite HF. unfold all_entries.
  set (k := k_thrust p) in *.
  assert (H1 : 0 <= r1 ^ 2) by nra.
  assert (H2 : 0 <= r2 ^ 2) by nra.
  assert (H3 : 0 <= r3 ^ 2) by nra.
  assert (H4 : 0 <= r4 ^ 2) by nra.
  assert (P1 : 0 <= r1 ^ 2 * k) by nra.
  assert (P2 : 0 <= r2 ^ 2 * k) by nra.
  assert (P3 : 0 <= r3 ^ 2 * k) by nra.
  assert (P4 : 0 <= r4 ^ 2 * k) by nra.
  split; [repeat split; assumption |].
  do 2 eexists. split; [apply (step_controls_ok _ _ _ _ _ _ Hk0 HF) |].
  split; [lra |].
  split.
  - intros H.
    assert (Z1 : r1 ^ 2 * k = 0) by lra.
    assert (Z2 : r2 ^ 2 * k = 0) by lra.
    assert (Z3 : r3 ^ 2 * k = 0) by lra.
    assert (Z4 : r4 ^ 2 * k = 0) by lra.
    assert (Hsq : forall r, r ^ 2 * k = 0 -> r = 0).
    { intros r Hr. apply Rmult_integral in Hr. destruct Hr as [Hr | Hr]; [| lra].
      replace (r ^ 2) with (r * r) in Hr by ring.
      apply Rmult_integral in Hr. destruct Hr; assumption. }
    apply vec4_eq; apply Hsq; assumption.
  - intros H. injection H as -> -> -> ->. ring.
Qed.

Lemma X2_thrust_never_negative_witness :
  all_entries (fun F => 0 <= F)
    (rotor_thrust_model Params_default (Float4 (- 380, 340, - 380, 340)))
  /\ exists u1 u2,
       step_controls Params_default
         (mkQuadrotorCommands (Float4 (- 380, 340, - 380, 340))) = Ok (u1, u2)
       /\ 0 <= u1
       /\ (u1 = 0 <->
           rates_value (Float4 (- 380, 340, - 380, 340)) = (0, 0, 0, 0)).
Proof.
  apply (X2_thrust_never_negative Params_default
           (Float4 (- 380, 340, - 380, 340)));
    [unfold Params_default, rho; lra
    | unfold Params_default, rotor_diameter; lra
    | unfold Params_default, static_thrust_coefficient; lra
    | exact I].
Defined.

(** ** Mixing *)

Lemma step_controls_equal_forces (p : Params) (a : ndarray4) (F : R) :
  k_thrust p <> 0 ->
  rotor_thrust_model p a = (F, F, F, F) ->
  step_controls p (mkQuadrotorCommands a) = Ok (4 * F, zeros3).
Proof.
  intros Hk HF. rewrite (step_controls_ok _ _ _ _ _ _ Hk HF). unfold zeros3.
  apply f_equal. apply f_equal2; [ring | apply vec3_eq; ring].
Qed.

(** X3. With a nonzero thrust coefficient, four equal rotor rates [r]
    whose square does not wrap around give no torque at all, and the total
    thrust is four times [r^2 k_thrust]. *)
Theorem X3_equal_rates_no_torque (p : Params) (a : ndarray4) (r : R) :
  k_thrust p <> 0 ->
  exact_rates a ->
  rates_value a = (r, r, r, r) ->
  step_controls p (mkQuadrotorCommands a) =
  Ok (4 * (r ^ 2 * k_thrust p), zeros3).
Proof.
  intros Hk Ha Hr. apply (step_controls_equal_forces _ _ _ Hk).
  rewrite (rotor_thrust_model_exact _ _ Ha), Hr. reflexivity.
Qed.

Lemma X3_equal_rates_no_torque_witness :
  step_controls Params_default
    (mkQuadrotorCommands (Int4 (363, 363, 363, 363)%Z)) =
  Ok (4 * (363 ^ 2 * k_thrust Params_default), zeros3).
Proof.
  apply (X3_equal_rates_no_torque Params_default
           (Int4 (363, 363, 363, 363)%Z) 363).
  - exact k_thrust_default_neq0.
  - cbn. unfold int64_square_bound. lia.
  - reflexivity.
Defined.

(** X4. With a nonzero thrust coefficient, scaling four float rotor rates
    by [s] scales the thrust and the three torques by [s^2]. *)
Theorem X4_controls_quadratic_in_rates (p : Params) (s r1 r2 r3 r4 : R) :
  k_thrust p <> 0 ->
  exists u1 u2,
    step_controls p (mkQuadrotorCommands (Float4 (r1, r2, r3, r4))) =
      Ok (u1, u2)
    /\ step_controls p
         (mkQuadrotorCommands (Float4 (s * r1, s * r2, s * r3, s * r4))) =
       Ok (s ^ 2 * u1, vscale3 (s ^ 2) u2).
Proof.
  intros Hk. do 2 eexists.
  split; [apply (step_controls_ok p (Float4 (r1, r2, r3, r4)) _ _ _ _ Hk eq_refl) |].
  rewrite (step_controls_ok p (Float4 (s * r1, s * r2, s * r3, s * r4))
             _ _ _ _ Hk eq_refl).
  unfold vscale3. apply f_equal.
  apply f_equal2; [ring | apply vec3_eq; ring].
Qed.

Lemma X4_controls_quadratic_in_rates_witness :
  exists u1 u2,
    step_controls Params_default
      (mkQuadrotorCommands (Float4 (360, 359, 358, 359))) = Ok (u1, u2)
    /\ step_controls Params_default
         (mkQuadrotorCommands (Float4 (2 * 360, 2 * 359, 2 * 358, 2 * 359))) =
       Ok (2 ^ 2 * u1, vscale3 (2 ^ 2) u2).
Proof.
  apply (X4_controls_quadratic_in_rates Params_default 2 360 359 358 359).
  exact k_thrust_default_neq0.
Defined.

(** X5. The four control modes of the mixing matrix do not couple: a
    common change of the four forces changes the thrust only; moving force
    from rotor 1 to rotor 3 changes the pitch torque only; moving force
    from rotor 4 to rotor 2 changes the roll torque only; raising rotors 1
    and 3 while lowering rotors 2 and 4 changes the yaw torque only. *)
Theorem X5_control_modes_decouple (L m_t F1 F2 F3 F4 d : R) :
  let M := mixing_matrix L m_t in
  let u := matvec44 M (F1, F2, F3, F4) in
  matvec44 M (F1 + d, F2 + d, F3 + d, F4 + d) = vadd4 u (4 * d, 0, 0, 0)
  /\ matvec44 M (F1, F2 + d, F3, F4 - d) = vadd4 u (0, 2 * L * d, 0, 0)
  /\ matvec44 M (F1 - d, F2, F3 + d, F4) = vadd4 u (0, 0, 2 * L * d, 0)
  /\ matvec44 M (F1 + d, F2 - d, F3 + d, F4 - d) = vadd4 u (0, 0, 0, 4 * m_t * d).
Proof.
  intros M u. unfold u, M, mixing_matrix, matvec44, dot4, vadd4.
  repeat split; apply vec4_eq; ring.
Qed.

(** X6. With a nonzero arm length and a nonzero torque-to-thrust ratio the
    mixing matrix is invertible: the thrust and the three torques
    determine the four rotor forces, by the formula below. *)
Theorem X6_mixing_invertible
    (L m_t F1 F2 F3 F4 u1 ux uy uz : R) :
  L <> 0 ->
  m_t <> 0 ->
  matvec44 (mixing_matrix L m_t) (F1, F2, F3, F4) = (u1, ux, uy, uz)
  <-> (F1, F2, F3, F4) =
      (u1 / 4 - uy / (2 * L) + uz / (4 * m_t),
       u1 / 4 + ux / (2 * L) - uz / (4 * m_t),
       u1 / 4 + uy / (2 * L) + uz / (4 * m_t),
       u1 / 4 - ux / (2 * L) - uz / (4 * m_t)).
Proof.
  intros HL Hm. unfold mixing_matrix, matvec44, dot4.
  split; intros H.
  - injection H as E1 Ex Ey Ez. subst u1 ux uy uz.
    apply vec4_eq; field; split; assumption.
  - injection H as -> -> -> ->.
    apply vec4_eq; field; try split; assumption.
Qed.

Lemma X6_mixing_invertible_witness :
  matvec44
    (mixing_matrix (arm_length Params_default)
       (k_torque Params_default / k_thrust Params_default))
    (1, 1, 1, 1) = (4, 0, 0, 0)
  <-> (1, 1, 1, 1) =
      (4 / 4 - 0 / (2 * arm_length Params_default)
         + 0 / (4 * (k_torque Params_default / k_thrust Params_default)),
       4 / 4 + 0 / (2 * arm_length Params_default)
         - 0 / (4 * (k_torque Params_default / k_thrust Params_default)),
       4 / 4 + 0 / (2 * arm_length Params_default)
         + 0 / (4 * (k_torque Params_default / k_thrust Params_default)),
       4 / 4 - 0 / (2 * arm_length Params_default)
         - 0 / (4 * (k_torque Params_default / k_thrust Params_default))).
Proof.
  apply (X6_mixing_invertible (arm_length Params_default)
           (k_torque Params_default / k_thrust Params_default)
           1 1 1 1 4 0 0 0).
  - unfold Params_default, arm_length. lra.
  - pose proof k_thrust_default_bounds as Hk.
    pose proof k_torque_default_bounds as Hq.
    apply Rgt_not_eq. apply Rdiv_lt_0_compat; lra.
Defined.

(** ** Rotational dynamics *)

(** X8. For a diagonal inertia tensor with nonzero entries the angular
    acceleration is given by Euler's equations in principal axes: each
    component is the torque minus the gyroscopic coupling of the two other
    axes, over the moment of inertia. *)
Theorem X8_principal_axes
    (p : Params) (Ixx Iyy Izz : R) (t : R) (s : QuadrotorState)
    (u1 ux uy uz wx wy wz : R) :
  inertia p = diag3 Ixx Iyy Izz ->
  Ixx <> 0 -> Iyy <> 0 -> Izz <> 0 ->
  angular_velocity s = (wx, wy, wz) ->
  exists d,
    state_derivative p t s u1 (ux, uy, uz) = Ok d
    /\ angular_velocity d =
       ((ux - (Izz - Iyy) * wy * wz) / Ixx,
        (uy - (Ixx - Izz) * wz * wx) / Iyy,
        (uz - (Iyy - Ixx) * wx * wy) / Izz).
Proof.
  intros HI Hx Hy Hz Hw.
  assert (Hdet : det33 (inertia p) <> 0).
  { rewrite HI. unfold det33, diag3.
    replace (Ixx * (Iyy * Izz - 0 * 0) - 0 * (0 * Izz - 0 * 0) + 0 * (0 * 0 - Iyy * 0))
      with (Ixx * (Iyy * Izz)) by ring.
    apply Rmult_integral_contrapositive_currified; [exact Hx |].
    apply Rmult_integral_contrapositive_currified; assumption. }
  eexists. split; [apply state_derivative_ok; exact Hdet |].
  cbn [angular_velocity]. rewrite HI, Hw.
  unfold diag3, matvec33, mscale33, adjugate33, det33, np_cross, vsub3,
    vdiv3, dot3.
  apply vec3_eq; field; repeat split; assumption.
Qed.

Lemma X8_principal_axes_witness :
  exists d,
    state_derivative Params_default 0
      (mkQuadrotorState zeros3 Rot3_identity zeros3 (1, 2, 3)) 5 (1, 0, 2) = Ok d
    /\ angular_velocity d =
       ((1 - (18.6e-3 - 10.02e-3) * 2 * 3) / 9.8e-3,
        (0 - (9.8e-3 - 18.6e-3) * 3 * 1) / 10.02e-3,
        (2 - (10.02e-3 - 9.8e-3) * 1 * 2) / 18.6e-3).
Proof.
  apply (X8_principal_axes Params_default 9.8e-3 10.02e-3 18.6e-3 0
           (mkQuadrotorState zeros3 Rot3_identity zeros3 (1, 2, 3))
           5 1 0 2 1 2 3);
    try reflexivity; lra.
Defined.

(** X9. With an invertible inertia tensor the gyroscopic term does no
    work: the angular velocity dotted with inertia times the returned
    angular acceleration equals the angular velocity dotted with the
    torque, so without torque this power is zero. *)
Theorem X9_gyroscopic_term_does_no_work
    (p : Params) (t : R) (s : QuadrotorState) (u1 : R) (u2 : Vec3) :
  det33 (inertia p) <> 0 ->
  exists d,
    state_derivative p t s u1 u2 = Ok d
    /\ dot3 (angular_velocity s) (matvec33 (inertia p) (angular_velocity d))
       = dot3 (angular_velocity s) u2.
Proof.
  intros Hdet. eexists. split; [apply state_derivative_ok; exact Hdet |].
  cbn [angular_velocity].
  destruct (inertia p) as [[[[a b] c] [[d e] f]] [[g0 h] i]].
  destruct (angular_velocity s) as [[wx wy] wz].
  destruct u2 as [[ux uy] uz].
  unfold det33 in Hdet.
  unfold matvec33, mscale33, adjugate33, det33, np_cross, vsub3, vdiv3, dot3.
  field; exact Hdet.
Qed.

Lemma X9_gyroscopic_term_does_no_work_witness :
  exists d,
    state_derivative Params_default 0
      (mkQuadrotorState zeros3 Rot3_identity zeros3 (1, 2, 3)) 5 zeros3 = Ok d
    /\ dot3 (1, 2, 3) (matvec33 (inertia Params_default) (angular_velocity d))
       = dot3 (1, 2, 3) zeros3.
Proof.
  apply (X9_gyroscopic_term_does_no_work Params_default 0
           (mkQuadrotorState zeros3 Rot3_identity zeros3 (1, 2, 3)) 5 zeros3).
  exact det_inertia_default.
Defined.

(** ** Quaternion kinematics *)

(** X10. The quaternion derivative of [dRot3] has squared norm one quarter
    of the squared norm of the quaternion times the squared norm of the
    angular velocity; for a unit quaternion its norm is half the angular
    speed. *)
Theorem X10_dRot3_norm (r : Rot3) (omega : Vec3) :
  dot4 (to_storage (dRot3 r omega)) (to_storage (dRot3 r omega)) =
  dot4 (to_storage r) (to_storage r) * dot3 omega omega / 4.
Proof.
  destruct r as [x y z w]. destruct_vec3 omega.
  unfold dRot3, dRot3_G, to_storage. cbn. field.
Qed.

(** X11. [dRot3] is linear in the angular velocity and in the quaternion:
    no angular velocity gives the zero derivative, and derivatives of
    combinations are the combinations of the derivatives. *)
Theorem X11_dRot3_bilinear (r r' : Rot3) (w w' : Vec3) (a b : R) :
  to_storage (dRot3 r zeros3) = (0, 0, 0, 0)
  /\ to_storage (dRot3 r (vadd3 (vscale3 a w) (vscale3 b w'))) =
     vadd4 (vscale4 a (to_storage (dRot3 r w)))
           (vscale4 b (to_storage (dRot3 r w')))
  /\ to_storage
       (dRot3 (from_storage
                 (vadd4 (vscale4 a (to_storage r)) (vscale4 b (to_storage r'))))
              w) =
     vadd4 (vscale4 a (to_storage (dRot3 r w)))
           (vscale4 b (to_storage (dRot3 r' w))).
Proof.
  destruct r as [x y z q]. destruct r' as [x' y' z' q'].
  destruct_vec3 w. destruct_vec3 w'.
  unfold dRot3, dRot3_G, to_storage, zeros3. cbn.
  repeat split; apply vec4_eq; field.
Qed.

(** ** The controllers *)

(** X12. At every time [BouncyController] commands four equal float rotor
    rates between 0 and 600 rad/s, so the rates are never negative; with a
    nonzero thrust coefficient [step] computes no torque from them. *)
Theorem X12_bouncy_rates_bounded (p : Params) (t : R) :
  k_thrust p <> 0 ->
  exists r u1,
    rotor_rates (BouncyController_step t) = Float4 (r, r, r, r)
    /\ 0 <= r <= 600
    /\ step_controls p (BouncyController_step t) = Ok (u1, zeros3).
Proof.
  intros Hk. unfold BouncyController_step. cbv zeta.
  pose proof (SIN_bound (t * 2 * 2 * PI + PI / 2)) as [Hlo Hhi].
  do 2 eexists. cbn [rotor_rates]. split; [reflexivity |].
  split; [lra |].
  eapply step_controls_equal_forces; [exact Hk | reflexivity].
Qed.

Lemma X12_bouncy_rates_bounded_witness :
  exists r u1,
    rotor_rates (BouncyController_step 0) = Float4 (r, r, r, r)
    /\ 0 <= r <= 600
    /\ step_controls Params_default (BouncyController_step 0) = Ok (u1, zeros3).
Proof.
  apply (X12_bouncy_rates_bounded Params_default 0).
  exact k_thrust_default_neq0.
Defined.

(** X13. [MoveAndStopController] never commands a roll torque.  With a
    positive arm length and thrust coefficient its pitch torque is
    negative before t = 1, positive from t = 1 to t = 2.5, and from
    t = 2.5 on the four rates are equal and there is no torque at all. *)
Theorem X13_move_and_stop_phases (p : Params) (t : R) :
  0 < arm_length p ->
  0 < k_thrust p ->
  exists u1 ux uy uz,
    step_controls p (MoveAndStopController_step t) = Ok (u1, (ux, uy, uz))
    /\ ux = 0
    /\ (t < 1 -> uy < 0)
    /\ (1 <= t < 2.5 -> 0 < uy)
    /\ (2.5 <= t -> uy = 0 /\ uz = 0).
Proof.
  intros HL Hk. assert (Hk0 : k_thrust p <> 0) by lra.
  unfold MoveAndStopController_step.
  destruct (Rlt_dec t 1) as [H1 | H1]; [| destruct (Rlt_dec t 2.5) as [H2 | H2]].
  - do 4 eexists.
    split; [eapply step_controls_ok; [exact Hk0 | reflexivity] |].
    compute_wrap64.
    split; [ring |]. split; [intros _; nra |]. split; intros; lra.
  - do 4 eexists.
    split; [eapply step_controls_ok; [exact Hk0 | reflexivity] |].
    compute_wrap64.
    split; [ring |]. split; [intros; lra |].
    split; [intros _; nra | intros; lra].
  - do 4 eexists.
    split; [eapply step_controls_ok; [exact Hk0 | reflexivity] |].
    compute_wrap64.
    split; [ring |]. split; [intros; lra |].
    split; [intros; lra | intros _; split; ring].
Qed.

Lemma X13_move_and_stop_phases_witness :
  exists u1 ux uy uz,
    step_controls Params_default (MoveAndStopController_step (1 / 2)) =
    Ok (u1, (ux, uy, uz))
    /\ ux = 0
    /\ (1 / 2 < 1 -> uy < 0)
    /\ (1 <= 1 / 2 < 2.5 -> 0 < uy)
    /\ (2.5 <= 1 / 2 -> uy = 0 /\ uz = 0).
Proof.
  apply (X13_move_and_stop_phases Params_default (1 / 2)).
  - unfold Params_default, arm_length. lra.
  - apply k_thrust_default_bounds.
Defined.

(** X14. [TestController] commands, at every time, rates that give
    neither roll nor pitch torque; with a nonzero thrust coefficient the
    yaw torque is 57600 times the torque coefficient. *)
Theorem X14_test_controller_yaw_only (p : Params) (t : R) :
  k_thrust p <> 0 ->
  step_controls p (TestController_step t) =
  Ok (520000 * k_thrust p, (0, 0, 57600 * k_torque p)).
Proof.
  intros Hk. unfold TestController_step.
  erewrite step_controls_ok; [| exact Hk | reflexivity]. compute_wrap64.
  apply f_equal.
  apply f_equal2; [ring | apply vec3_eq; [ring | ring | field; exact Hk]].
Qed.

Lemma X14_test_controller_yaw_only_witness :
  step_controls Params_default (TestController_step 0) =
  Ok (520000 * k_thrust Params_default, (0, 0, 57600 * k_torque Params_default)).
Proof.
  apply (X14_test_controller_yaw_only Params_default 0).
  exact k_thrust_default_neq0.
Defined.

(** ** Quaternion kinematics, continued *)

(** X15. The quaternion derivative that [dRot3] returns is orthogonal to
    the quaternion itself, so to first order the norm of the orientation
    does not change along the motion. *)
Theorem X15_dRot3_orthogonal_to_quaternion (r : Rot3) (omega : Vec3) :
  dot4 (to_storage r) (to_storage (dRot3 r omega)) = 0.
Proof.
  destruct r as [x y z w]. destruct_vec3 omega.
  unfold dRot3, dRot3_G, to_storage, dot4. cbn. field.
Qed.

(** X16. [dRot3] returns half the Hamilton product of the orientation
    (x, y, z, w, scalar last) with the pure quaternion of the angular
    velocity, the orientation on the left: the angular velocity is read in
    the body frame. *)
Theorem X16_dRot3_hamilton_product (x y z w wx wy wz : R) :
  to_storage (dRot3 (mkRot3 x y z w) (wx, wy, wz)) =
  vscale4 (1 / 2)
    (w * wx + (y * wz - z * wy),
     w * wy + (z * wx - x * wz),
     w * wz + (x * wy - y * wx),
     - (x * wx + y * wy + z * wz)).
Proof.
  unfold dRot3, dRot3_G, to_storage, vscale4. cbn.
  apply vec4_eq; field.
Qed.
